(** * demo-fasthtml: the geo-chat turn pipeline

    A shallow embedding of [index.py], [localisation.py] and [map.py].

    - A Python [str] is kept as its UTF-8 encoding (a Rocq [string] of
      bytes); [len] counts code points, as Python does.
    - A Python [float] is a binary64 primitive float.
    - A turn of the conversation is a Python dict with string keys: a
      [gmap string pyval].  The dicts handed to [json.dumps] keep their
      insertion order, which decides the text produced, so they are
      association lists ([VDict]).
    - The module-level list [chat], the random source behind [uuid4] and
      the hosted model behind [chain.invoke] are the state of the process:
      handlers are computations in a state-and-exception monad over
      [World].  An exception leaves every mutation made before it in
      place, as in Python. *)

From Stdlib Require Import ZArith NArith String Ascii List DecimalString.
From Stdlib Require Import Floats.PrimFloat.
From stdpp Require Import gmap strings list fin_maps.

Set Warnings "-inexact-float,-register-all".
Local Open Scope string_scope.
Local Open Scope list_scope.

(** ** Python strings *)

(** The double quote character, and a string between double quotes. *)
Definition dquote : string := String "034"%char EmptyString.
Definition quoted (s : string) : string := dquote +:+ s +:+ dquote.

(** Code points of a UTF-8 encoded string. [need] is the number of
    continuation bytes still expected and [acc] the bits read so far. *)
Fixpoint codepoints_go (s : string) (acc : N) (need : nat) : list N :=
  match s with
  | EmptyString => []
  | String c s' =>
      let b := N_of_ascii c in
      match need with
      | O =>
          if (b <? 128)%N then b :: codepoints_go s' 0%N 0
          else if (b <? 224)%N then codepoints_go s' (N.land b 31) 1
          else if (b <? 240)%N then codepoints_go s' (N.land b 15) 2
          else codepoints_go s' (N.land b 7) 3
      | S k =>
          let acc' := (acc * 64 + N.land b 63)%N in
          match k with
          | O => acc' :: codepoints_go s' 0%N 0
          | S _ => codepoints_go s' acc' k
          end
      end
  end.

Definition codepoints (s : string) : list N := codepoints_go s 0%N 0.

(** [len(s)] for a [str]: the number of code points. *)
Definition len (s : string) : nat := length (codepoints s).

(** [s.replace(old, new)] for a non-empty [old]: leftmost, non-overlapping
    occurrences. [skip] counts the bytes of a match still to be dropped. *)
Fixpoint replace_go (old new s : string) (skip : nat) : string :=
  match s with
  | EmptyString => EmptyString
  | String c s' =>
      match skip with
      | S k => replace_go old new s' k
      | O =>
          if String.prefix old s
          then new +:+ replace_go old new s' (String.length old - 1)
          else String c (replace_go old new s' 0)
      end
  end.

(** With an empty [old], Python puts [new] before every character and at
    the end. *)
Fixpoint replace_empty (new s : string) : string :=
  match s with
  | EmptyString => new
  | String c s' =>
      let b := N_of_ascii c in
      if ((128 <=? b) && (b <? 192))%N
      then String c (replace_empty new s')
      else new +:+ String c (replace_empty new s')
  end.

Definition replace (s old new : string) : string :=
  match old with
  | EmptyString => replace_empty new s
  | String _ _ => replace_go old new s 0
  end.

(** ** Python values *)

Inductive pyval : Type :=
  | VStr (s : string)
  | VFloat (f : float)
  | VInt (z : Z)
  | VBool (b : bool)
  | VList (l : list pyval)
  | VDict (d : list (string * pyval)).

(** [v == s] for a string literal [s]. *)
Definition eq_str (v : pyval) (s : string) : bool :=
  match v with
  | VStr s' => String.eqb s' s
  | _ => false
  end.

(** ** [json.dumps], with its default arguments *)

Definition hex_digit (d : N) : ascii :=
  if (d <? 10)%N then ascii_of_N (48 + d) else ascii_of_N (87 + d).

(** ['\\u{0:04x}'.format(n)] *)
Definition u_escape (n : N) : string :=
  "\u" +:+
  String (hex_digit (N.shiftr n 12 mod 16))
    (String (hex_digit (N.shiftr n 8 mod 16))
       (String (hex_digit (N.shiftr n 4 mod 16))
          (String (hex_digit (n mod 16)) EmptyString))).

(** The replacement of one code point in [py_encode_basestring_ascii]:
    printable ASCII is kept, the quote and the backslash are escaped, the
    usual control characters have short escapes and everything else is
    written as UTF-16 code units. *)
Definition escape_codepoint (n : N) : string :=
  if (n =? 34)%N then "\" +:+ dquote
  else if (n =? 92)%N then "\\"
  else if ((32 <=? n) && (n <=? 126))%N then String (ascii_of_N n) EmptyString
  else if (n =? 8)%N then "\b"
  else if (n =? 12)%N then "\f"
  else if (n =? 10)%N then "\n"
  else if (n =? 13)%N then "\r"
  else if (n =? 9)%N then "\t"
  else if (n <? 65536)%N then u_escape n
  else
    let m := (n - 65536)%N in
    u_escape (N.lor 55296 (N.land (N.shiftr m 10) 1023)) +:+
    u_escape (N.lor 56320 (N.land m 1023)).

Definition json_str (s : string) : string :=
  quoted (String.concat "" (List.map escape_codepoint (codepoints s))).

Definition json_int (z : Z) : string :=
  NilZero.string_of_int (Z.to_int z).

Definition json_bool (b : bool) : string :=
  if b then "true" else "false".

(** ** Results and exceptions *)

(** The exceptions that can reach a handler: a missing dict key, and the
    two ways the resolver chain fails (the model's reply does not parse
    into the schema, or the outbound call itself fails).

    [Unmodelled] is not an exception of Python.  A run ends with it when
    it reaches behaviour of fasthtml that this development does not
    describe (see [child]); nothing is stated of the outcome of the code
    on such a run. *)
Inductive exn : Type :=
  | KeyError (key : string)
  | OutputParserException
  | APIError
  | Unmodelled.

Inductive result (A : Type) : Type :=
  | Ok (a : A)
  | Raise (e : exn).
Arguments Ok {A} a.
Arguments Raise {A} e.

(** ** localisation.py: the answer schema *)

Record LocalisationAnswer : Type := {
  answer : string;
  lat : float;
  lon : float;
}.

(** ** The element tree of the presentation layer *)

(** An element has a tag, children and keyword attributes; a child is an
    element or a plain Python value (the text).  A dict is never a child:
    see [child]. *)
Inductive FT : Type :=
  | Txt (v : pyval)
  | Tag (tag : string) (children : list FT) (attrs : list (string * string)).

Definition Div := Tag "div".
Definition P := Tag "p".
Definition Main := Tag "main".
Definition Nav := Tag "nav".
Definition Ul := Tag "ul".
Definition Li := Tag "li".
Definition A := Tag "a".
Definition Img := Tag "img".
Definition Form := Tag "form".
Definition Fieldset := Tag "fieldset".
Definition Input := Tag "input".
Definition Button := Tag "button".
Definition Script (code : string) : FT := Tag "script" [Txt (VStr code)] [].

(** Iterating an element ([*elt] in an argument list) yields its children. *)
Definition ft_iter (t : FT) : list FT :=
  match t with
  | Tag _ children _ => children
  | Txt _ => []
  end.

(** The code of every script element of a tree, in document order. *)
Fixpoint scripts (t : FT) : list (list FT) :=
  match t with
  | Txt _ => []
  | Tag tag children _ =>
      (if String.eqb tag "script" then [children] else []) ++
      List.concat (List.map scripts children)
  end.

(** ** The state of the process *)

(** A turn is a dict with string keys. *)
Abbreviation Turn := (gmap string pyval).

Record World : Type := {
  chat : list Turn;        (* the module-level list [chat] of index.py *)
  uuid4_calls : nat;       (* how many times [uuid4()] has been called *)
  chain_calls : nat;       (* how many times [chain.invoke] has been called *)
}.

(** index.py, lines 36-44: the value [chat] is bound to at import. *)
Definition chat_seed : list Turn :=
  [ {[ "role" := VStr "user";
       "message" := VStr "Bonjour, où est né Martin Luther King ?" ]};
    {[ "role" := VStr "bot";
       "message" := VStr "Martin Luther King est né à Atlanta, en Géorgie.";
       "lat" := VFloat 33.7490%float;
       "lon" := VFloat (-84.3880)%float ]} ].

Definition initial_world : World :=
  {| chat := chat_seed; uuid4_calls := 0; chain_calls := 0 |}.

(** ** The monad of handlers *)

Definition M (A : Type) : Type := World -> result A * World.

Definition ret {A : Type} (a : A) : M A := fun w => (Ok a, w).

Definition raise {A : Type} (e : exn) : M A := fun w => (Raise e, w).

Definition bind {A B : Type} (m : M A) (k : A -> M B) : M B :=
  fun w =>
    match m w with
    | (Ok a, w') => k a w'
    | (Raise e, w') => (Raise e, w')
    end.

Declare Scope py_scope.
Delimit Scope py_scope with py.
Notation "x <- m ;; k" := (bind m (fun x => k))
  (at level 100, m at next level, right associativity) : py_scope.
Local Open Scope py_scope.

(** [d[key]] *)
Definition getitem (d : Turn) (key : string) : M pyval :=
  match d !! key with
  | Some v => ret v
  | None => raise (KeyError key)
  end.

(** Whether a value is a dict. *)
Definition is_dict (v : pyval) : bool :=
  match v with
  | VDict _ => true
  | _ => false
  end.

(** The child an element gets from a value passed as its positional
    argument.  fasthtml makes a child of any value but a dict: a dict
    passed positionally is taken as attributes of the element, which then
    has no child, under fasthtml's own rules for the names and the values
    of attributes.  These rules are not described here: on a dict the run
    ends with [Unmodelled]. *)
Definition child (v : pyval) : M FT :=
  if is_dict v then raise Unmodelled else ret (Txt v).

(** [chat.append(turn)] *)
Definition chat_append (turn : Turn) : M unit :=
  fun w =>
    (Ok tt, {| chat := chat w ++ [turn];
               uuid4_calls := uuid4_calls w;
               chain_calls := chain_calls w |}).

(** Reading the global [chat]. *)
Definition chat_read : M (list Turn) := fun w => (Ok (chat w), w).

(** ** Sample behaviours of the environment

    Python's [repr] of a float, the random source and the hosted model are
    not code of the repository: the handlers take them as parameters.  The
    samples below are used where a statement is run on concrete data. *)

Definition sample_float_repr (f : float) : string :=
  if PrimFloat.eqb f 33.7490 then "33.749"
  else if PrimFloat.eqb f (-84.3880) then "-84.388"
  else if PrimFloat.eqb f 48.8566 then "48.8566"
  else if PrimFloat.eqb f 2.3522 then "2.3522"
  else "0.0".

Definition sample_uuid4 (n : nat) : string :=
  match n with
  | 0 => "6f1c2b9e-3a47-4d06-b5e3-0c9d8e7f6a51"
  | 1 => "d2a84c70-5b1f-4e93-8a6d-71f0e3c2b945"
  | _ => "9be05d13-c6f2-47a8-9d34-2a8b6c4e0f17"
  end.

Definition mlk_question : string :=
  "Bonjour, où est né Martin Luther King ?".

Definition mlk_answer : LocalisationAnswer :=
  {| answer := "Martin Luther King est né à Atlanta, en Géorgie.";
     lat := 33.7490;
     lon := -84.3880 |}.

Definition paris_answer : LocalisationAnswer :=
  {| answer := "Paris is the capital of France.";
     lat := 48.8566;
     lon := 2.3522 |}.

(** A model that answers two kinds of questions and whose reply to
    anything else does not parse into the schema. *)
Definition sample_chain_invoke (n : nat) (question : string)
  : result LocalisationAnswer :=
  if String.eqb question mlk_question then Ok mlk_answer
  else if String.prefix "Where" question then Ok paris_answer
  else Raise OutputParserException.


Section Handlers.

(** [repr(f)] of a finite float. *)
Variable float_repr : float -> string.
(** [str(uuid4())] at the [n]-th call. *)
Variable uuid4 : nat -> string.
(** [chain.invoke] at the [n]-th call: the structured answer, or the
    exception raised by the model call or by the output parser. *)
Variable chain_invoke : nat -> string -> result LocalisationAnswer.

(** *** json.dumps *)

Definition json_float (f : float) : string :=
  match classify f with
  | FloatClass.NaN => "NaN"
  | FloatClass.PInf => "Infinity"
  | FloatClass.NInf => "-Infinity"
  | _ => float_repr f
  end.

Fixpoint json_dumps (v : pyval) : string :=
  match v with
  | VStr s => json_str s
  | VFloat f => json_float f
  | VInt z => json_int z
  | VBool b => json_bool b
  | VList l => "[" +:+ String.concat ", " (List.map json_dumps l) +:+ "]"
  | VDict d =>
      "{" +:+
      String.concat ", "
        (List.map (fun kv => match kv with
                             | (k, x) => json_str k +:+ ": " +:+ json_dumps x
                             end) d) +:+
      "}"
  end.

(** *** map.py *)

(** [uuid4()] followed by [str]. *)
Definition uuid4_str : M string :=
  fun w =>
    (Ok (uuid4 (uuid4_calls w)),
     {| chat := chat w;
        uuid4_calls := S (uuid4_calls w);
        chain_calls := chain_calls w |}).

(** The local [data] of [get_map_with_marker]. *)
Definition marker_data (lat lon : pyval) : pyval :=
  VList
    [ VDict
        [ ("type", VStr "scattermap");
          ("lat", VList [lat]);
          ("lon", VList [lon]);
          ("mode", VStr "markers");
          ("marker", VDict [ ("size", VInt 20); ("color", VStr "#EE4823") ]);
          ("text", VList [VStr "Miam"]) ] ].

(** The local [layout] of [get_map_with_marker]. *)
Definition marker_layout (lat lon : pyval) : pyval :=
  VDict
    [ ("autosize", VBool true);
      ("hovermode", VStr "closest");
      ("margin",
       VDict [ ("r", VInt 0); ("t", VInt 0); ("b", VInt 0); ("l", VInt 0) ]);
      ("map",
       VDict
         [ ("center", VDict [ ("lat", lat); ("lon", lon) ]);
           ("bearing", VInt 0);
           ("zoom", VInt 2);
           ("pitch", VInt 0) ]) ].

(** The f-string of line 40. *)
Definition newPlot_call (id_div : string) (data layout : pyval) : string :=
  "Plotly.newPlot('" +:+ id_div +:+ "', " +:+ json_dumps data +:+ ", " +:+
  json_dumps layout +:+ ")".

Definition get_map_with_marker (lat lon : pyval) : M FT :=
  let data := marker_data lat lon in
  let layout := marker_layout lat lon in
  u <- uuid4_str ;;
  let id_div := replace u "-" "_" in
  ret (Div
         [ Div [] [ ("id", id_div); ("cls", "map") ];
           Script (newPlot_call id_div data layout) ]
         []).

(** *** localisation.py *)

(** The call [chain.invoke({...})]: prompt, model and output parser. *)
Definition chain_invoke_call (question : string) : M LocalisationAnswer :=
  fun w =>
    (chain_invoke (chain_calls w) question,
     {| chat := chat w;
        uuid4_calls := uuid4_calls w;
        chain_calls := S (chain_calls w) |}).

Definition get_answer (question : string) : M Turn :=
  localisation <- chain_invoke_call question ;;
  ret ({[ "role" := VStr "bot";
          "message" := VStr (answer localisation);
          "lat" := VFloat (lat localisation);
          "lon" := VFloat (lon localisation) ]} : Turn).

(** *** index.py *)

Definition get_navigation (current_page : string) : FT :=
  Nav
    [ Ul [ Img [] [ ("src", "cbtw.svg"); ("alt", "CBTW") ] ] [ ("cls", "left") ];
      Ul
        [ Li [ A [ Txt (VStr "Home") ]
                 [ ("href", "/");
                   ("cls", if String.eqb current_page "/" then "active" else "") ] ]
             [];
          Li [ A [ Txt (VStr "Geo Chat") ]
                 [ ("href", "/geo-chat");
                   ("cls",
                    if String.eqb current_page "/geo-chat" then "active" else "") ] ]
             [] ]
        [ ("cls", "right") ] ]
    [].

(** The loop of [messages_to_fh]; [fh_messages] is the list built so far. *)
Fixpoint messages_to_fh_loop (messages : list Turn) (fh_messages : list FT)
  : M (list FT) :=
  match messages with
  | [] => ret fh_messages
  | message :: rest =>
      role <- getitem message "role" ;;
      if eq_str role "user" then
        text <- getitem message "message" ;;
        shown <- child text ;;
        messages_to_fh_loop rest
          (fh_messages ++
           [ Div [ Div [ shown ] [] ] [ ("cls", "container chat-user") ] ])
      else
        text <- getitem message "message" ;;
        shown <- child text ;;
        lat <- getitem message "lat" ;;
        lon <- getitem message "lon" ;;
        marker <- get_map_with_marker lat lon ;;
        messages_to_fh_loop rest
          (fh_messages ++
           [ Div [ Div (P [ shown ] [] :: ft_iter marker) [] ]
               [ ("cls", "container chat-bot") ] ])
  end.

Definition messages_to_fh (messages : list Turn) : M (list FT) :=
  messages_to_fh_loop messages [].

(** What a handler returns: one element, or a tuple of elements. *)
Inductive Response : Type :=
  | One (t : FT)
  | Tuple (ts : list FT).

(** [get] of route [/] (index.py, lines 72-80). *)
Definition get_root : M Response :=
  ret (Tuple
         [ Main [ get_navigation "/"; P [ Txt (VStr "Hello world") ] [] ]
             [ ("cls", "container") ] ]).

(** [get] of route [/geo-chat] (index.py, lines 83-101). *)
Definition get_geo_chat : M Response :=
  log <- chat_read ;;
  fh <- messages_to_fh log ;;
  ret (One
         (Main
            [ get_navigation "/geo-chat";
              Div fh [ ("id", "chatbox") ];
              Form
                [ Fieldset
                    [ Input []
                        [ ("type", "text"); ("name", "message");
                          ("id", "message"); ("placeholder", "Message") ];
                      Button [ Txt (VStr "Send") ] [ ("type", "submit") ] ]
                    [ ("role", "group") ] ]
                [ ("hx_post", "/geo-chat"); ("hx_target", "#chatbox");
                  ("hx_swap", "outerHTML") ] ]
            [ ("cls", "container pico-color-amber-200");
              ("data_theme", "light") ])).

(** [post] of route [/geo-chat] (index.py, lines 104-110). *)
Definition post (message : string) : M Response :=
  _ <- (if (5 <? len message)%nat then
          _ <- chat_append
                 ({[ "role" := VStr "user"; "message" := VStr message ]} : Turn) ;;
          turn <- get_answer message ;;
          chat_append turn
        else ret tt) ;;
  log <- chat_read ;;
  fh <- messages_to_fh log ;;
  ret (Tuple [ Div fh [ ("id", "chatbox") ] ]).

(** *** The server *)

Inductive Request : Type :=
  | GET_root
  | GET_geo_chat
  | POST_geo_chat (message : string).

Definition handle (r : Request) : M Response :=
  match r with
  | GET_root => get_root
  | GET_geo_chat => get_geo_chat
  | POST_geo_chat message => post message
  end.

(** [serve]: requests are handled one after the other; a request whose
    handler raises is answered with an error and the process goes on with
    the state the handler left. *)
Definition serve (requests : list Request) (w : World) : World :=
  fold_left (fun w r => snd (handle r w)) requests w.


(** ** Vocabulary of the statements *)

(** The two dict literals of the source: the one [post] appends for the
    user (index.py, line 107) and the one [get_answer] returns
    (localisation.py, lines 38-43). *)
Definition user_turn (message : string) : Turn :=
  {[ "role" := VStr "user"; "message" := VStr message ]}.

Definition bot_turn (a : LocalisationAnswer) : Turn :=
  {[ "role" := VStr "bot";
     "message" := VStr (answer a);
     "lat" := VFloat (lat a);
     "lon" := VFloat (lon a) ]}.

(** The turns that occur in the log have one of these two shapes. *)
Inductive turn_shape : Turn -> Prop :=
  | shape_user (message : string) : turn_shape (user_turn message)
  | shape_bot (a : LocalisationAnswer) : turn_shape (bot_turn a).

(** The turns one request appends, in the order of the appends. *)
Definition appended_by (r : Request) (w : World) : list Turn :=
  match r with
  | POST_geo_chat message =>
      if (5 <? len message)%nat then
        user_turn message ::
        match chain_invoke (chain_calls w) message with
        | Ok a => [bot_turn a]
        | Raise _ => []
        end
      else []
  | _ => []
  end.

(** The turns a sequence of requests appends, in the order of the appends. *)
Fixpoint appended (requests : list Request) (w : World) : list Turn :=
  match requests with
  | [] => []
  | r :: rest => appended_by r w ++ appended rest (snd (handle r w))
  end.

(** The last three lines of [post]: render the log as the chatbox. *)
Definition chatbox : M Response :=
  log <- chat_read ;;
  fh <- messages_to_fh log ;;
  ret (Tuple [ Div fh [ ("id", "chatbox") ] ]).

(** The text of the script of one marker, written out; [jlat] and [jlon]
    are the JSON texts of the coordinates. *)
Definition plot_text (id_div jlat jlon : string) : string :=
  "Plotly.newPlot('" +:+ id_div +:+ "', " +:+
  "[{" +:+ quoted "type" +:+ ": " +:+ quoted "scattermap" +:+ ", " +:+
  quoted "lat" +:+ ": [" +:+ jlat +:+ "], " +:+
  quoted "lon" +:+ ": [" +:+ jlon +:+ "], " +:+
  quoted "mode" +:+ ": " +:+ quoted "markers" +:+ ", " +:+
  quoted "marker" +:+ ": {" +:+ quoted "size" +:+ ": 20, " +:+
  quoted "color" +:+ ": " +:+ quoted "#EE4823" +:+ "}, " +:+
  quoted "text" +:+ ": [" +:+ quoted "Miam" +:+ "]}]" +:+ ", " +:+
  "{" +:+ quoted "autosize" +:+ ": true, " +:+
  quoted "hovermode" +:+ ": " +:+ quoted "closest" +:+ ", " +:+
  quoted "margin" +:+ ": {" +:+ quoted "r" +:+ ": 0, " +:+ quoted "t" +:+
  ": 0, " +:+ quoted "b" +:+ ": 0, " +:+ quoted "l" +:+ ": 0}, " +:+
  quoted "map" +:+ ": {" +:+ quoted "center" +:+ ": {" +:+
  quoted "lat" +:+ ": " +:+ jlat +:+ ", " +:+
  quoted "lon" +:+ ": " +:+ jlon +:+ "}, " +:+
  quoted "bearing" +:+ ": 0, " +:+ quoted "zoom" +:+ ": 2, " +:+
  quoted "pitch" +:+ ": 0}}" +:+ ")".

(** [d[key]] on a dict handed to [json.dumps]. *)
Fixpoint assoc (key : string) (d : list (string * pyval)) : option pyval :=
  match d with
  | [] => None
  | (k, v) :: rest => if String.eqb k key then Some v else assoc key rest
  end.

Definition dict_get (key : string) (v : pyval) : option pyval :=
  match v with
  | VDict d => assoc key d
  | _ => None
  end.

(** [v[k1][k2]...] *)
Fixpoint dict_path (keys : list string) (v : pyval) : option pyval :=
  match keys with
  | [] => Some v
  | key :: rest =>
      match dict_get key v with
      | Some x => dict_path rest x
      | None => None
      end
  end.

(** The world after [n] more calls of [uuid4]. *)
Definition after_uuid4 (n : nat) (w : World) : World :=
  {| chat := chat w;
     uuid4_calls := n + uuid4_calls w;
     chain_calls := chain_calls w |}.

(** A computation that only renders: whatever it returns, it leaves the
    log and the count of model calls alone and only draws identifiers. *)
Definition render_only {A : Type} (m : M A) : Prop :=
  forall w, exists n, snd (m w) = after_uuid4 n w.

(** What a rendered element shows of its turn: no script for a user turn,
    and for a bot turn the one script that plots its coordinates. *)
Definition marker_script (t : Turn) (e : FT) : Prop :=
  (t !! "role" = Some (VStr "user") /\ scripts e = []) \/
  (exists (id_div : string) (la lo : float),
     t !! "role" = Some (VStr "bot") /\
     t !! "lat" = Some (VFloat la) /\
     t !! "lon" = Some (VFloat lo) /\
     scripts e =
       [ [ Txt (VStr (plot_text id_div (json_float la) (json_float lo))) ] ]).

(** *** Vocabulary of the further properties *)



(** Whether the loop of [messages_to_fh] draws a map for a turn: the turn
    has a role and it is not [user]. *)
Definition with_map (t : Turn) : bool :=
  match t !! "role" with
  | Some role => negb (eq_str role "user")
  | None => false
  end.

Definition count_maps (messages : list Turn) : nat :=
  length (List.filter with_map messages).

(** The value of a keyword attribute of an element. *)
Fixpoint attr (key : string) (attrs : list (string * string)) : option string :=
  match attrs with
  | [] => None
  | (k, v) :: rest => if String.eqb k key then Some v else attr key rest
  end.

(** The ids of the elements of class [map] of a tree, in document order. *)
Fixpoint map_ids (t : FT) : list string :=
  match t with
  | Txt _ => []
  | Tag _ children attrs =>
      match attr "cls" attrs, attr "id" attrs with
      | Some "map", Some i => [i]
      | _, _ => []
      end ++
      List.concat (List.map map_ids children)
  end.

(** The attributes of the links of a tree, in document order. *)
Fixpoint anchors (t : FT) : list (list (string * string)) :=
  match t with
  | Txt _ => []
  | Tag tag children attrs =>
      (if String.eqb tag "a" then [attrs] else []) ++
      List.concat (List.map anchors children)
  end.

(** The id that [get_map_with_marker] makes of the [k]-th draw. *)
Definition drawn_id (k : nat) : string := replace (uuid4 k) "-" "_".

(** Whether a request reaches the resolver: a [POST /geo-chat] whose
    message passes the length gate. *)
Definition asks_resolver (r : Request) : bool :=
  match r with
  | POST_geo_chat message => (5 <? len message)%nat
  | _ => false
  end.

(** A log made of exchanges: a user turn alone, when the resolver failed
    on it, or a user turn followed by the bot turn that answers it. *)
Inductive exchanges : list Turn -> Prop :=
  | exchanges_nil : exchanges []
  | exchanges_unanswered (message : string) (l : list Turn) :
      exchanges l -> exchanges (user_turn message :: l)
  | exchanges_answered (message : string) (a : LocalisationAnswer)
      (l : list Turn) :
      exchanges l -> exchanges (user_turn message :: bot_turn a :: l).

(** The element that renders a turn of the log: for a user turn the text
    in a box of class [chat-user]; for a bot turn, in a box of class
    [chat-bot], the text in a paragraph, the map container and the script
    that plots the turn's coordinates into it. *)
Definition shown (t : Turn) (e : FT) : Prop :=
  (exists text : string,
     t !! "role" = Some (VStr "user") /\
     t !! "message" = Some (VStr text) /\
     e = Div [ Div [ Txt (VStr text) ] [] ]
           [ ("cls", "container chat-user") ]) \/
  (exists (text id_div : string) (la lo : float),
     t !! "role" = Some (VStr "bot") /\
     t !! "message" = Some (VStr text) /\
     t !! "lat" = Some (VFloat la) /\
     t !! "lon" = Some (VFloat lo) /\
     e = Div
           [ Div
               [ P [ Txt (VStr text) ] [];
                 Div [] [ ("id", id_div); ("cls", "map") ];
                 Script (plot_text id_div (json_float la) (json_float lo)) ]
               [] ]
           [ ("cls", "container chat-bot") ]).

(** ** Lemmas on strings and JSON texts *)

Lemma append_assoc (a b c : string) : (a +:+ b) +:+ c = a +:+ (b +:+ c).
Proof.
  induction a as [|x a IH]; [reflexivity|].
  change (String x ((a +:+ b) +:+ c) = String x (a +:+ b +:+ c)).
  by rewrite IH.
Qed.

Example len_hi : len "Hi" = 2.
Proof. reflexivity. Qed.

(** 39 characters in 41 bytes. *)
Example len_mlk_question :
  len "Bonjour, où est né Martin Luther King ?" = 39 /\
  String.length "Bonjour, où est né Martin Luther King ?" = 41.
Proof. split; reflexivity. Qed.

Example replace_uuid :
  replace "6f1c2b9e-3a47-4d06-b5e3-0c9d8e7f6a51" "-" "_" =
  "6f1c2b9e_3a47_4d06_b5e3_0c9d8e7f6a51".
Proof. reflexivity. Qed.

Example replace_overlap : replace "aaa" "aa" "b" = "ba".
Proof. reflexivity. Qed.

Example json_str_escapes :
  json_str "où ?" = quoted "o\u00f9 ?" /\
  json_str (dquote +:+ "\") = quoted ("\" +:+ dquote +:+ "\\").
Proof. split; reflexivity. Qed.

(** Unfolds [json_dumps] on the literal part of a value, keeps the texts of
    its unknown parts as they are, and compares the two sides. *)
Ltac json_text :=
  cbn [json_dumps List.map String.concat];
  repeat match goal with
         | |- context [json_dumps ?v] => generalize (json_dumps v); intro
         end;
  rewrite ?append_assoc; vm_compute; reflexivity.

Lemma newPlot_call_text (id_div : string) (lat lon : pyval) :
  newPlot_call id_div (marker_data lat lon) (marker_layout lat lon) =
  plot_text id_div (json_dumps lat) (json_dumps lon).
Proof.
  unfold newPlot_call, plot_text, marker_data, marker_layout.
  generalize id_div as i. intros i.
  json_text.
Qed.

(** ** Lemmas on the handlers *)

Lemma after_uuid4_0 (w : World) : after_uuid4 0 w = w.
Proof. by destruct w. Qed.

Lemma after_uuid4_S (n : nat) (w : World) :
  after_uuid4 n (after_uuid4 1 w) = after_uuid4 (S n) w.
Proof. unfold after_uuid4. cbn [chat uuid4_calls chain_calls]. f_equal. lia. Qed.

(** One run of the loop body on a turn of role [user]. *)
Lemma loop_cons_user (message : Turn) (rest : list Turn) (acc : list FT)
    (text : pyval) (w : World) :
  message !! "role" = Some (VStr "user") ->
  message !! "message" = Some text ->
  is_dict text = false ->
  messages_to_fh_loop (message :: rest) acc w =
  messages_to_fh_loop rest
    (acc ++ [ Div [ Div [ Txt text ] [] ] [ ("cls", "container chat-user") ] ]) w.
Proof.
  intros Hrole Htext Hplain.
  cbn [messages_to_fh_loop]. unfold bind, getitem, child.
  rewrite Hrole. cbn [ret eq_str]. rewrite Htext. cbn [ret].
  rewrite Hplain. reflexivity.
Qed.

(** One run of the loop body on a turn of any other role. *)
Lemma loop_cons_bot (message : Turn) (rest : list Turn) (acc : list FT)
    (role text lat lon : pyval) (w : World) :
  message !! "role" = Some role ->
  eq_str role "user" = false ->
  message !! "message" = Some text ->
  is_dict text = false ->
  message !! "lat" = Some lat ->
  message !! "lon" = Some lon ->
  messages_to_fh_loop (message :: rest) acc w =
  messages_to_fh_loop rest
    (acc ++
     [ Div
         [ Div
             [ P [ Txt text ] [];
               Div []
                 [ ("id", replace (uuid4 (uuid4_calls w)) "-" "_");
                   ("cls", "map") ];
               Script
                 (plot_text (replace (uuid4 (uuid4_calls w)) "-" "_")
                    (json_dumps lat) (json_dumps lon)) ]
             [] ]
         [ ("cls", "container chat-bot") ] ])
    (after_uuid4 1 w).
Proof.
  intros Hrole Hne Htext Hplain Hlat Hlon.
  cbn [messages_to_fh_loop]. unfold bind, getitem, child.
  rewrite Hrole. cbn [ret]. rewrite Hne, Htext. cbn [ret].
  rewrite Hplain. cbn [ret].
  rewrite Hlat. cbn [ret]. rewrite Hlon. cbn [ret].
  unfold get_map_with_marker, bind, uuid4_str. cbn [ret ft_iter Div].
  rewrite newPlot_call_text. reflexivity.
Qed.

Lemma render_only_ret {A : Type} (a : A) : render_only (ret a).
Proof. intros w. exists 0. by rewrite after_uuid4_0. Qed.

Lemma render_only_raise {A : Type} (e : exn) : render_only (raise (A := A) e).
Proof. intros w. exists 0. by rewrite after_uuid4_0. Qed.

Lemma render_only_bind {A B : Type} (m : M A) (k : A -> M B) :
  render_only m -> (forall a, render_only (k a)) -> render_only (bind m k).
Proof.
  intros Hm Hk w. unfold bind.
  destruct (Hm w) as [n Hn].
  destruct (m w) as [[a|e] w1]; cbn [snd] in Hn; subst w1.
  - destruct (Hk a (after_uuid4 n w)) as [n' Hn'].
    exists (n' + n). rewrite Hn'.
    unfold after_uuid4. cbn [chat uuid4_calls chain_calls]. f_equal. lia.
  - by exists n.
Qed.

Lemma render_only_getitem (d : Turn) (key : string) :
  render_only (getitem d key).
Proof.
  unfold getitem. destruct (d !! key);
    [apply render_only_ret | apply render_only_raise].
Qed.

Lemma render_only_get_map_with_marker (lat lon : pyval) :
  render_only (get_map_with_marker lat lon).
Proof.
  unfold get_map_with_marker. apply render_only_bind.
  - intros w. by exists 1.
  - intros u. apply render_only_ret.
Qed.

Lemma render_only_child (v : pyval) : render_only (child v).
Proof.
  unfold child. destruct (is_dict v);
    [apply render_only_raise | apply render_only_ret].
Qed.

Lemma render_only_loop (messages : list Turn) :
  forall acc, render_only (messages_to_fh_loop messages acc).
Proof.
  induction messages as [|message rest IH]; intros acc;
    cbn [messages_to_fh_loop].
  - apply render_only_ret.
  - apply render_only_bind; [apply render_only_getitem|]. intros role.
    destruct (eq_str role "user").
    + apply render_only_bind; [apply render_only_getitem|]. intros text.
      apply render_only_bind; [apply render_only_child|]. intros shown.
      apply IH.
    + apply render_only_bind; [apply render_only_getitem|]. intros text.
      apply render_only_bind; [apply render_only_child|]. intros shown.
      apply render_only_bind; [apply render_only_getitem|]. intros lat.
      apply render_only_bind; [apply render_only_getitem|]. intros lon.
      apply render_only_bind; [apply render_only_get_map_with_marker|].
      intros marker. apply IH.
Qed.

Lemma render_only_chatbox : render_only chatbox.
Proof.
  unfold chatbox. apply render_only_bind.
  - intros w. exists 0. by rewrite after_uuid4_0.
  - intros log. apply render_only_bind; [apply render_only_loop|].
    intros fh. apply render_only_ret.
Qed.

Lemma render_only_get_geo_chat : render_only get_geo_chat.
Proof.
  unfold get_geo_chat. apply render_only_bind.
  - intros w. exists 0. by rewrite after_uuid4_0.
  - intros log. apply render_only_bind; [apply render_only_loop|].
    intros fh. apply render_only_ret.
Qed.

(** On a log of well-shaped turns the loop returns, with one element per
    turn, in order. *)
Lemma loop_shaped (messages : list Turn) :
  Forall turn_shape messages ->
  forall (acc : list FT) (w : World), exists (fh : list FT) (n : nat),
    messages_to_fh_loop messages acc w = (Ok (acc ++ fh), after_uuid4 n w) /\
    Forall2 marker_script messages fh.
Proof.
  induction 1 as [|t rest Ht _ IH]; intros acc w.
  - exists [], 0. cbn [messages_to_fh_loop ret].
    by rewrite app_nil_r, after_uuid4_0.
  - destruct Ht as [message|a].
    + rewrite (loop_cons_user _ _ _ (VStr message)) by reflexivity.
      edestruct IH as (fh & n & -> & Hfh).
      eexists (_ :: fh), n. rewrite <- app_assoc. split; [reflexivity|].
      constructor; [|exact Hfh]. left. split; reflexivity.
    + rewrite (loop_cons_bot _ _ _ (VStr "bot") (VStr (answer a))
                 (VFloat (lat a)) (VFloat (lon a))) by reflexivity.
      edestruct IH as (fh & n & -> & Hfh).
      eexists (_ :: fh), (S n). rewrite <- app_assoc, after_uuid4_S.
      split; [reflexivity|].
      constructor; [|exact Hfh]. right.
      exists (replace (uuid4 (uuid4_calls w)) "-" "_"), (lat a), (lon a).
      repeat split; reflexivity.
Qed.

(** The same run, with the elements themselves: each turn is rendered by
    its element, and the map containers carry the draws in order. *)
Lemma loop_shown (messages : list Turn) :
  Forall turn_shape messages ->
  forall (acc : list FT) (w : World), exists fh : list FT,
    messages_to_fh_loop messages acc w =
      (Ok (acc ++ fh), after_uuid4 (count_maps messages) w) /\
    Forall2 shown messages fh /\
    List.concat (List.map map_ids fh) =
      List.map drawn_id (seq (uuid4_calls w) (count_maps messages)).
Proof.
  induction 1 as [|t rest Ht _ IH]; intros acc w.
  - exists []. cbn [messages_to_fh_loop ret].
    rewrite app_nil_r. change (count_maps []) with 0.
    rewrite after_uuid4_0. repeat split. constructor.
  - destruct Ht as [message|a].
    + rewrite (loop_cons_user _ _ _ (VStr message)) by reflexivity.
      change (count_maps (user_turn message :: rest)) with (count_maps rest).
      edestruct IH as (fh & -> & Hfh & Hids).
      eexists (_ :: fh). rewrite <- app_assoc. split; [reflexivity|].
      split; [|exact Hids].
      constructor; [|exact Hfh]. left. exists message. by repeat split.
    + rewrite (loop_cons_bot _ _ _ (VStr "bot") (VStr (answer a))
                 (VFloat (lat a)) (VFloat (lon a))) by reflexivity.
      change (count_maps (bot_turn a :: rest)) with (S (count_maps rest)).
      edestruct IH as (fh & -> & Hfh & Hids).
      eexists (_ :: fh). rewrite <- app_assoc, after_uuid4_S.
      split; [reflexivity|]. split.
      * constructor; [|exact Hfh]. right.
        exists (answer a), (replace (uuid4 (uuid4_calls w)) "-" "_"),
          (lat a), (lon a).
        by repeat split.
      * cbn [uuid4_calls after_uuid4 Nat.add] in Hids.
        cbn [List.map List.concat seq]. rewrite Hids. reflexivity.
Qed.

Lemma chatbox_shown (w : World) :
  Forall turn_shape (chat w) ->
  exists fh : list FT,
    chatbox w =
      (Ok (Tuple [ Div fh [ ("id", "chatbox") ] ]),
       after_uuid4 (count_maps (chat w)) w) /\
    messages_to_fh (chat w) w =
      (Ok fh, after_uuid4 (count_maps (chat w)) w) /\
    Forall2 shown (chat w) fh /\
    List.concat (List.map map_ids fh) =
      List.map drawn_id (seq (uuid4_calls w) (count_maps (chat w))).
Proof.
  intros Hshape.
  destruct (loop_shown (chat w) Hshape [] w) as (fh & Hrun & Hfh & Hids).
  cbn [app] in Hrun. exists fh.
  split; [|by repeat split].
  unfold chatbox, bind, chat_read, messages_to_fh. by rewrite Hrun.
Qed.

Lemma messages_to_fh_shaped (messages : list Turn) (w : World) :
  Forall turn_shape messages ->
  exists (fh : list FT) (n : nat),
    messages_to_fh messages w = (Ok fh, after_uuid4 n w) /\
    Forall2 marker_script messages fh.
Proof.
  intros Hshape. unfold messages_to_fh.
  destruct (loop_shaped messages Hshape [] w) as (fh & n & Hrun & Hfh).
  exists fh, n. by split.
Qed.

Lemma chatbox_shaped (w : World) :
  Forall turn_shape (chat w) ->
  exists (fh : list FT) (n : nat),
    chatbox w = (Ok (Tuple [ Div fh [ ("id", "chatbox") ] ]), after_uuid4 n w) /\
    messages_to_fh (chat w) w = (Ok fh, after_uuid4 n w) /\
    Forall2 marker_script (chat w) fh.
Proof.
  intros Hshape.
  destruct (messages_to_fh_shaped (chat w) w Hshape) as (fh & n & Hrun & Hfh).
  exists fh, n. split; [|by split].
  unfold chatbox, bind, chat_read. by rewrite Hrun.
Qed.

(** The three ways through [post]. *)
Lemma post_short (message : string) (w : World) :
  len message <= 5 -> post message w = chatbox w.
Proof.
  intros Hlen. unfold post.
  replace (5 <? len message)%nat with false
    by (symmetry; apply Nat.ltb_ge; lia).
  reflexivity.
Qed.

Lemma post_answered (message : string) (a : LocalisationAnswer) (w : World) :
  5 < len message ->
  chain_invoke (chain_calls w) message = Ok a ->
  post message w =
  chatbox {| chat := chat w ++ [ user_turn message; bot_turn a ];
             uuid4_calls := uuid4_calls w;
             chain_calls := S (chain_calls w) |}.
Proof.
  intros Hlen Hanswer. unfold post.
  replace (5 <? len message)%nat with true
    by (symmetry; apply Nat.ltb_lt; lia).
  unfold bind at 1 2 3. unfold chat_append at 1. unfold get_answer, bind.
  unfold chain_invoke_call. cbn [chat uuid4_calls chain_calls].
  rewrite Hanswer. cbn [ret]. unfold chat_append.
  cbn [chat uuid4_calls chain_calls].
  rewrite <- app_assoc. reflexivity.
Qed.

Lemma post_failed (message : string) (e : exn) (w : World) :
  5 < len message ->
  chain_invoke (chain_calls w) message = Raise e ->
  post message w =
  (Raise e,
   {| chat := chat w ++ [ user_turn message ];
      uuid4_calls := uuid4_calls w;
      chain_calls := S (chain_calls w) |}).
Proof.
  intros Hlen Hraise. unfold post.
  replace (5 <? len message)%nat with true
    by (symmetry; apply Nat.ltb_lt; lia).
  unfold bind at 1 2 3. unfold chat_append at 1. unfold get_answer, bind.
  unfold chain_invoke_call. cbn [chat uuid4_calls chain_calls].
  rewrite Hraise. reflexivity.
Qed.

Lemma chatbox_chat (w : World) : chat (snd (chatbox w)) = chat w.
Proof. destruct (render_only_chatbox w) as [n ->]. reflexivity. Qed.

Lemma chatbox_chain_calls (w : World) :
  chain_calls (snd (chatbox w)) = chain_calls w.
Proof. destruct (render_only_chatbox w) as [n ->]. reflexivity. Qed.

(** Every handler extends the log by the turns of [appended_by]. *)
Lemma handle_chat (r : Request) (w : World) :
  chat (snd (handle r w)) = chat w ++ appended_by r w.
Proof.
  destruct r as [| |message]; cbn [handle appended_by].
  - by rewrite app_nil_r.
  - destruct (render_only_get_geo_chat w) as [n ->].
    by rewrite app_nil_r.
  - destruct (5 <? len message)%nat eqn:Hlen.
    + apply Nat.ltb_lt in Hlen.
      destruct (chain_invoke (chain_calls w) message) as [a|e] eqn:Hcall.
      * rewrite (post_answered _ a) by done. by rewrite chatbox_chat.
      * by rewrite (post_failed _ e) by done.
    + apply Nat.ltb_ge in Hlen.
      rewrite post_short by done. by rewrite chatbox_chat, app_nil_r.
Qed.

Lemma serve_cons (r : Request) (rest : list Request) (w : World) :
  serve (r :: rest) w = serve rest (snd (handle r w)).
Proof. reflexivity. Qed.

Lemma serve_chat (requests : list Request) :
  forall w, chat (serve requests w) = chat w ++ appended requests w.
Proof.
  induction requests as [|r rest IH]; intros w.
  - cbn [appended]. by rewrite app_nil_r.
  - rewrite serve_cons, IH, handle_chat. cbn [appended].
    by rewrite <- app_assoc.
Qed.

Lemma appended_by_shaped (r : Request) (w : World) :
  Forall turn_shape (appended_by r w).
Proof.
  destruct r as [| |message]; cbn [appended_by]; try constructor.
  destruct (5 <? len message)%nat; [|constructor].
  constructor; [apply shape_user|].
  destruct (chain_invoke (chain_calls w) message) as [a|e];
    [constructor; [apply shape_bot | constructor] | constructor].
Qed.

Lemma appended_shaped (requests : list Request) :
  forall w, Forall turn_shape (appended requests w).
Proof.
  induction requests as [|r rest IH]; intros w; cbn [appended].
  - constructor.
  - apply Forall_app. split; [apply appended_by_shaped | apply IH].
Qed.

Lemma chat_seed_shaped : Forall turn_shape chat_seed.
Proof.
  constructor.
  - apply (shape_user "Bonjour, où est né Martin Luther King ?").
  - constructor; [apply (shape_bot mlk_answer) | constructor].
Qed.

Lemma serve_shaped (requests : list Request) (w : World) :
  Forall turn_shape (chat w) -> Forall turn_shape (chat (serve requests w)).
Proof.
  intros Hshape. rewrite serve_chat. apply Forall_app.
  split; [exact Hshape | apply appended_shaped].
Qed.

(** ** The claims *)

(** C1. A [POST /geo-chat] whose [message] is longer than 5 characters and
    whose resolver call succeeds appends exactly two turns to the log:
    first the user turn with the input text as it is, then the bot turn
    with the resolver's answer, latitude and longitude.  On a log of
    well-shaped turns the request then returns the chatbox, with one
    element per turn. *)
Theorem post_appends_user_then_bot
    (message : string) (a : LocalisationAnswer) (w : World) :
  5 < len message ->
  chain_invoke (chain_calls w) message = Ok a ->
  chat (snd (post message w)) =
    chat w ++
    [ ({[ "role" := VStr "user"; "message" := VStr message ]} : Turn);
      ({[ "role" := VStr "bot";
          "message" := VStr (answer a);
          "lat" := VFloat (lat a);
          "lon" := VFloat (lon a) ]} : Turn) ] /\
  (Forall turn_shape (chat w) ->
   exists fh : list FT,
     fst (post message w) = Ok (Tuple [ Div fh [ ("id", "chatbox") ] ]) /\
     length fh = length (chat w) + 2).
Proof.
  intros Hlen Hanswer. rewrite (post_answered _ a) by done.
  split; [by rewrite chatbox_chat|].
  intros Hshape.
  edestruct (chatbox_shaped
               {| chat := chat w ++ [ user_turn message; bot_turn a ];
                  uuid4_calls := uuid4_calls w;
                  chain_calls := S (chain_calls w) |})
    as (fh & n & Hrun & _ & Hfh).
  { cbn [chat]. apply Forall_app. split; [exact Hshape|].
    constructor; [apply shape_user|].
    constructor; [apply shape_bot | constructor]. }
  exists fh. rewrite Hrun. split; [reflexivity|].
  apply Forall2_length in Hfh. cbn [chat] in Hfh.
  rewrite <- Hfh, length_app. reflexivity.
Qed.

(** C2. A [POST /geo-chat] whose [message] has at most 5 characters leaves
    the log as it is, and the resolver is not called. *)
Theorem post_short_leaves_log (message : string) (w : World) :
  len message <= 5 ->
  chat (snd (post message w)) = chat w /\
  chain_calls (snd (post message w)) = chain_calls w.
Proof.
  intros Hlen. rewrite post_short by done.
  split; [apply chatbox_chat | apply chatbox_chain_calls].
Qed.

(** C3, as amended.  When the resolver call of a [POST /geo-chat] with a
    [message] longer than 5 characters raises, the request fails with that
    exception and no bot turn is appended; the user turn appended before
    the call stays: the log is the one before the request followed by that
    user turn. *)
Theorem post_failure_appends_only_user_turn
    (message : string) (e : exn) (w : World) :
  5 < len message ->
  chain_invoke (chain_calls w) message = Raise e ->
  fst (post message w) = Raise e /\
  chat (snd (post message w)) =
    chat w ++ [ ({[ "role" := VStr "user"; "message" := VStr message ]} : Turn) ].
Proof.
  intros Hlen Hraise. rewrite (post_failed _ e) by done.
  split; reflexivity.
Qed.

(** C4. The log is append-only: after any sequence of requests it is the
    log before them followed by the appended turns, in the order of the
    appends; this is what a read returns, and the turns that were in the
    log are still there, at their places and unchanged. *)
Theorem log_is_append_only (requests : list Request) (w : World) :
  chat (serve requests w) = chat w ++ appended requests w /\
  fst (chat_read (serve requests w)) = Ok (chat w ++ appended requests w) /\
  take (length (chat w)) (chat (serve requests w)) = chat w.
Proof.
  unfold chat_read. cbn [fst]. rewrite serve_chat.
  repeat split. by rewrite take_app_length.
Qed.

(** C5. In the log of the running process a turn has the keys [lat] and
    [lon] if and only if its role is [bot]: a user turn has the keys
    [role] and [message] only, a bot turn has [role], [message], [lat] and
    [lon], and there is no other role. *)
Theorem lat_lon_iff_bot (requests : list Request) :
  Forall
    (fun t : Turn =>
       (is_Some (t !! "lat") /\ is_Some (t !! "lon") <->
        t !! "role" = Some (VStr "bot")) /\
       ((t !! "role" = Some (VStr "user") /\
         dom t = ({[ "role"; "message" ]} : gset string)) \/
        (t !! "role" = Some (VStr "bot") /\
         dom t = ({[ "role"; "message"; "lat"; "lon" ]} : gset string))))
    (chat (serve requests initial_world)).
Proof.
  eapply Forall_impl; [apply serve_shaped, chat_seed_shaped|].
  intros t [message|a]; cbv beta.
  - split.
    + split; [intros [[v Hv] _]; discriminate Hv | intros Hrole; discriminate Hrole].
    + left. split; [reflexivity | vm_compute; reflexivity].
  - split.
    + split; [reflexivity | intros _; split; eexists; reflexivity].
    + right. split; [reflexivity | vm_compute; reflexivity].
Qed.

(** C6. A [POST /geo-chat] whose [message] fails the length gate leaves
    the log unchanged, and its response is still the chatbox that renders
    the whole log as it was before the request: one element per turn, in
    order, each the rendering of its turn (the text of a user turn; the
    text, the map container and the plotting script of a bot turn), the
    map containers carrying the identifiers in the order they are drawn. *)
Theorem post_short_renders_log (message : string) (w : World) :
  len message <= 5 ->
  Forall turn_shape (chat w) ->
  exists (fh : list FT) (w' : World),
    post message w = (Ok (Tuple [ Div fh [ ("id", "chatbox") ] ]), w') /\
    chat w' = chat w /\
    messages_to_fh (chat w) w = (Ok fh, w') /\
    length fh = length (chat w) /\
    Forall2
      (fun (t : Turn) (e : FT) =>
         (exists text : string,
            t !! "role" = Some (VStr "user") /\
            t !! "message" = Some (VStr text) /\
            e = Div [ Div [ Txt (VStr text) ] [] ]
                  [ ("cls", "container chat-user") ]) \/
         (exists (text id_div : string) (la lo : float),
            t !! "role" = Some (VStr "bot") /\
            t !! "message" = Some (VStr text) /\
            t !! "lat" = Some (VFloat la) /\
            t !! "lon" = Some (VFloat lo) /\
            e = Div
                  [ Div
                      [ P [ Txt (VStr text) ] [];
                        Div [] [ ("id", id_div); ("cls", "map") ];
                        Script
                          (plot_text id_div (json_float la) (json_float lo)) ]
                      [] ]
                  [ ("cls", "container chat-bot") ]))
      (chat w) fh /\
    List.concat (List.map map_ids fh) =
      List.map (fun k : nat => replace (uuid4 k) "-" "_")
        (seq (uuid4_calls w) (count_maps (chat w))).
Proof.
  intros Hlen Hshape. rewrite post_short by done.
  destruct (chatbox_shown w Hshape) as (fh & Hrun & Hfh & Hall & Hids).
  exists fh, (after_uuid4 (count_maps (chat w)) w).
  split; [exact Hrun|]. split; [reflexivity|]. split; [exact Hfh|].
  split; [symmetry; by apply Forall2_length in Hall|].
  split; [exact Hall | exact Hids].
Qed.

(** C7. For the input "Bonjour, où est né Martin Luther King ?", when the
    resolver returns the answer "Martin Luther King est né à Atlanta, en
    Géorgie." with latitude 33.7490 and longitude -84.3880, the handler
    appends exactly two turns with that content, the user turn and right
    after it the bot turn. *)
Theorem post_mlk_scenario (w : World) :
  chain_invoke (chain_calls w) "Bonjour, où est né Martin Luther King ?" =
    Ok {| answer := "Martin Luther King est né à Atlanta, en Géorgie.";
          lat := 33.7490;
          lon := -84.3880 |} ->
  chat (snd (post "Bonjour, où est né Martin Luther King ?" w)) =
    chat w ++
    [ ({[ "role" := VStr "user";
          "message" := VStr "Bonjour, où est né Martin Luther King ?" ]} : Turn);
      ({[ "role" := VStr "bot";
          "message" := VStr "Martin Luther King est né à Atlanta, en Géorgie.";
          "lat" := VFloat 33.7490%float;
          "lon" := VFloat (-84.3880)%float ]} : Turn) ].
Proof.
  intros Hanswer.
  assert (Hlen : 5 < len "Bonjour, où est né Martin Luther King ?")
    by (apply Nat.ltb_lt; reflexivity).
  rewrite (post_answered _ _ _ Hlen Hanswer).
  by rewrite chatbox_chat.
Qed.

(** C8. Rendering a log of well-shaped turns returns one element per turn,
    in order; the element of a bot turn holds exactly one script, the call
    of [Plotly.newPlot] whose data is one point marker at the turn's
    latitude and longitude with marker size 20 and colour #EE4823 and
    whose layout has zoom 2 (the text is [plot_text]); the element of a
    user turn holds no script. *)
Theorem bot_turn_embeds_one_plot (messages : list Turn) (w : World) :
  Forall turn_shape messages ->
  exists (fh : list FT) (w' : World),
    messages_to_fh messages w = (Ok fh, w') /\
    Forall2
      (fun (t : Turn) (e : FT) =>
         (t !! "role" = Some (VStr "user") /\ scripts e = []) \/
         (exists (id_div : string) (la lo : float),
            t !! "role" = Some (VStr "bot") /\
            t !! "lat" = Some (VFloat la) /\
            t !! "lon" = Some (VFloat lo) /\
            scripts e =
              [ [ Txt (VStr (plot_text id_div (json_float la) (json_float lo))) ] ]))
      messages fh.
Proof.
  intros Hshape.
  destruct (messages_to_fh_shaped messages w Hshape) as (fh & n & Hrun & Hfh).
  exists fh, (after_uuid4 n w). split; [exact Hrun | exact Hfh].
Qed.

(** C9. At process start the log holds exactly two turns, the user turn
    "Bonjour, où est né Martin Luther King ?" and then the bot turn
    "Martin Luther King est né à Atlanta, en Géorgie." at latitude 33.7490
    and longitude -84.3880; after any sequence of requests the log is this
    seed followed by the appended turns. *)
Theorem log_starts_seeded :
  chat initial_world =
    [ ({[ "role" := VStr "user";
          "message" := VStr "Bonjour, où est né Martin Luther King ?" ]} : Turn);
      ({[ "role" := VStr "bot";
          "message" := VStr "Martin Luther King est né à Atlanta, en Géorgie.";
          "lat" := VFloat 33.7490%float;
          "lon" := VFloat (-84.3880)%float ]} : Turn) ] /\
  forall requests : list Request,
    chat (serve requests initial_world) =
      [ ({[ "role" := VStr "user";
            "message" := VStr "Bonjour, où est né Martin Luther King ?" ]} : Turn);
        ({[ "role" := VStr "bot";
            "message" := VStr "Martin Luther King est né à Atlanta, en Géorgie.";
            "lat" := VFloat 33.7490%float;
            "lon" := VFloat (-84.3880)%float ]} : Turn) ] ++
      appended requests initial_world.
Proof.
  split; [reflexivity|]. intros requests. by rewrite serve_chat.
Qed.

(** C10. [get_map_with_marker lat lon] returns a container [div] and a
    script; the script plots into the element whose id is the id of that
    container; its layout centres the map on [lat] and [lon], the
    coordinates of the marker of its data, with bearing 0 and pitch 0. *)
Theorem map_centered_on_marker (lat lon : pyval) (w : World) :
  exists (id_div : string) (point : pyval),
    get_map_with_marker lat lon w =
      (Ok (Div
             [ Div [] [ ("id", id_div); ("cls", "map") ];
               Script (newPlot_call id_div (marker_data lat lon)
                         (marker_layout lat lon)) ]
             []),
       after_uuid4 1 w) /\
    newPlot_call id_div (marker_data lat lon) (marker_layout lat lon) =
      plot_text id_div (json_dumps lat) (json_dumps lon) /\
    marker_data lat lon = VList [ point ] /\
    dict_get "lat" point = Some (VList [ lat ]) /\
    dict_get "lon" point = Some (VList [ lon ]) /\
    dict_path [ "map"; "center"; "lat" ] (marker_layout lat lon) = Some lat /\
    dict_path [ "map"; "center"; "lon" ] (marker_layout lat lon) = Some lon /\
    dict_path [ "map"; "bearing" ] (marker_layout lat lon) = Some (VInt 0) /\
    dict_path [ "map"; "pitch" ] (marker_layout lat lon) = Some (VInt 0).
Proof.
  eexists (replace (uuid4 (uuid4_calls w)) "-" "_"), _.
  split; [reflexivity|].
  split; [apply newPlot_call_text|].
  repeat split; reflexivity.
Qed.

(** ** Further lemmas on the handlers *)

Lemma after_uuid4_add (n m : nat) (w : World) :
  after_uuid4 n (after_uuid4 m w) = after_uuid4 (n + m) w.
Proof. unfold after_uuid4. cbn [chat uuid4_calls chain_calls]. f_equal. lia. Qed.



Lemma count_maps_user (message : string) (rest : list Turn) :
  count_maps (user_turn message :: rest) = count_maps rest.
Proof. reflexivity. Qed.

Lemma count_maps_bot (a : LocalisationAnswer) (rest : list Turn) :
  count_maps (bot_turn a :: rest) = S (count_maps rest).
Proof. reflexivity. Qed.

(** The run of the loop over a well-shaped prefix of the list: one element
    per turn, one draw per bot turn, the ids being the draws in order. *)
Lemma loop_shaped_prefix (good : list Turn) :
  Forall turn_shape good ->
  forall (rest : list Turn) (acc : list FT) (w : World),
  exists fh : list FT,
    messages_to_fh_loop (good ++ rest) acc w =
      messages_to_fh_loop rest (acc ++ fh) (after_uuid4 (count_maps good) w) /\
    length fh = length good /\
    List.concat (List.map map_ids fh) =
      List.map drawn_id (seq (uuid4_calls w) (count_maps good)) /\
    length (List.concat (List.map scripts fh)) = count_maps good.
Proof.
  induction 1 as [|t good Ht _ IH]; intros rest acc w.
  - exists []. cbn [app]. rewrite app_nil_r, after_uuid4_0. by repeat split.
  - cbn [app]. destruct Ht as [message|a].
    + rewrite (loop_cons_user _ _ _ (VStr message)) by reflexivity.
      edestruct IH as (fh & -> & Hlen & Hids & Hscripts).
      eexists (_ :: fh). rewrite <- app_assoc, count_maps_user.
      split; [reflexivity|]. split; [cbn [length]; by rewrite Hlen|].
      split; [exact Hids | exact Hscripts].
    + rewrite (loop_cons_bot _ _ _ (VStr "bot") (VStr (answer a))
                 (VFloat (lat a)) (VFloat (lon a))) by reflexivity.
      edestruct IH as (fh & -> & Hlen & Hids & Hscripts).
      eexists (_ :: fh).
      rewrite <- app_assoc, count_maps_bot, after_uuid4_add.
      replace (count_maps good + 1) with (S (count_maps good)) by lia.
      split; [reflexivity|]. split; [cbn [length]; by rewrite Hlen|].
      split.
      * cbn [uuid4_calls after_uuid4 Nat.add] in Hids.
        cbn [List.map List.concat seq]. rewrite Hids. reflexivity.
      * cbn [List.map List.concat]. rewrite length_app, Hscripts. reflexivity.
Qed.

Lemma handle_chain_calls (r : Request) (w : World) :
  chain_calls (snd (handle r w)) =
  chain_calls w + (if asks_resolver r then 1 else 0).
Proof.
  destruct r as [| |message]; cbn [handle asks_resolver].
  - cbn [get_root ret snd]. lia.
  - destruct (render_only_get_geo_chat w) as [n ->].
    cbn [after_uuid4 chain_calls]. lia.
  - destruct (5 <? len message)%nat eqn:Hlen.
    + apply Nat.ltb_lt in Hlen.
      destruct (chain_invoke (chain_calls w) message) as [a|e] eqn:Hcall.
      * rewrite (post_answered _ a) by done.
        rewrite chatbox_chain_calls. cbn [chain_calls]. lia.
      * rewrite (post_failed _ e) by done. cbn [snd chain_calls]. lia.
    + apply Nat.ltb_ge in Hlen.
      rewrite post_short by done. rewrite chatbox_chain_calls. lia.
Qed.

Lemma appended_by_length (r : Request) (w : World) :
  (if asks_resolver r then 1 else 0) <= length (appended_by r w) /\
  length (appended_by r w) <= (if asks_resolver r then 2 else 0).
Proof.
  destruct r as [| |message]; cbn [appended_by asks_resolver length];
    try lia.
  destruct (5 <? len message)%nat; cbn [length]; [|lia].
  destruct (chain_invoke (chain_calls w) message); cbn [length]; lia.
Qed.

Lemma exchanges_app (l1 l2 : list Turn) :
  exchanges l1 -> exchanges l2 -> exchanges (l1 ++ l2).
Proof.
  induction 1 as [|message l _ IH|message a l _ IH]; intros Hl2; cbn [app].
  - exact Hl2.
  - apply exchanges_unanswered. by apply IH.
  - apply exchanges_answered. by apply IH.
Qed.

Lemma appended_by_exchanges (r : Request) (w : World) :
  exchanges (appended_by r w).
Proof.
  destruct r as [| |message]; cbn [appended_by]; try apply exchanges_nil.
  destruct (5 <? len message)%nat; [|apply exchanges_nil].
  destruct (chain_invoke (chain_calls w) message) as [a|e].
  - apply exchanges_answered, exchanges_nil.
  - apply exchanges_unanswered, exchanges_nil.
Qed.

Lemma appended_exchanges (requests : list Request) :
  forall w, exchanges (appended requests w).
Proof.
  induction requests as [|r rest IH]; intros w; cbn [appended].
  - apply exchanges_nil.
  - apply exchanges_app; [apply appended_by_exchanges | apply IH].
Qed.

(** In the string made by [replace u "-" "_"] every hyphen is an
    underscore and every other character is the one of [u]. *)
Lemma replace_hyphen (u : string) :
  list_ascii_of_string (replace u "-" "_") =
  List.map (fun c : ascii => if Ascii.eqb c "-" then "_"%char else c)
    (list_ascii_of_string u).
Proof.
  unfold replace.
  induction u as [|c u IH]; [reflexivity|].
  cbn [replace_go String.prefix String.length Nat.sub list_ascii_of_string
       List.map].
  destruct (ascii_dec "-" c) as [<-|Hne].
  - replace (String.prefix "" u) with true by (by destruct u).
    change ("_" +:+ ?s) with (String "_" s).
    cbn [list_ascii_of_string]. by rewrite IH.
  - cbn [list_ascii_of_string]. rewrite IH.
    destruct (Ascii.eqb_spec c "-") as [->|_]; [done | reflexivity].
Qed.

Lemma messages_to_fh_counted (messages : list Turn) (w : World) :
  Forall turn_shape messages ->
  exists fh : list FT,
    messages_to_fh messages w =
      (Ok fh, after_uuid4 (count_maps messages) w) /\
    length fh = length messages /\
    List.concat (List.map map_ids fh) =
      List.map drawn_id (seq (uuid4_calls w) (count_maps messages)) /\
    length (List.concat (List.map scripts fh)) = count_maps messages.
Proof.
  intros Hshape. unfold messages_to_fh.
  destruct (loop_shaped_prefix messages Hshape [] [] w)
    as (fh & Hrun & Hlen & Hids & Hscripts).
  exists fh. rewrite app_nil_r in Hrun. rewrite Hrun.
  cbn [messages_to_fh_loop ret app]. by repeat split.
Qed.

Lemma serve_chain_calls (requests : list Request) :
  forall w,
    chain_calls (serve requests w) =
    chain_calls w + length (List.filter asks_resolver requests).
Proof.
  induction requests as [|r rest IH]; intros w.
  - cbn [serve fold_left List.filter length]. lia.
  - rewrite serve_cons, IH, handle_chain_calls. cbn [List.filter].
    destruct (asks_resolver r); cbn [length]; lia.
Qed.

Lemma appended_length (requests : list Request) :
  forall w,
    length (List.filter asks_resolver requests) <=
      length (appended requests w) /\
    length (appended requests w) <=
      2 * length (List.filter asks_resolver requests).
Proof.
  induction requests as [|r rest IH]; intros w;
    cbn [appended List.filter].
  - cbn [length]. lia.
  - rewrite length_app.
    destruct (appended_by_length r w) as [Hlo Hhi].
    destruct (IH (snd (handle r w))) as [IHlo IHhi].
    destruct (asks_resolver r); cbn [length]; lia.
Qed.

Lemma chat_seed_exchanges : exchanges chat_seed.
Proof.
  apply (exchanges_answered "Bonjour, où est né Martin Luther King ?"
           mlk_answer), exchanges_nil.
Qed.

(** The links of the navigation bar. *)
Lemma anchors_get_navigation (current_page : string) :
  anchors (get_navigation current_page) =
  [ [ ("href", "/");
      ("cls", if String.eqb current_page "/" then "active" else "") ];
    [ ("href", "/geo-chat");
      ("cls", if String.eqb current_page "/geo-chat" then "active" else "") ] ].
Proof. reflexivity. Qed.

(** ** Further properties *)




(** X4. On a log of well-shaped turns [messages_to_fh] returns one element
    per turn and draws one identifier per bot turn; the map containers of
    the elements carry the identifiers in the order of the draws, and
    there are as many scripts as bot turns. *)
Theorem messages_to_fh_draws_in_order (messages : list Turn) (w : World) :
  Forall turn_shape messages ->
  exists fh : list FT,
    messages_to_fh messages w =
      (Ok fh, after_uuid4 (count_maps messages) w) /\
    length fh = length messages /\
    List.concat (List.map map_ids fh) =
      List.map (fun k : nat => replace (uuid4 k) "-" "_")
        (seq (uuid4_calls w) (count_maps messages)) /\
    length (List.concat (List.map scripts fh)) = count_maps messages.
Proof.
  intros Hshape.
  destruct (messages_to_fh_counted messages w Hshape)
    as (fh & Hrun & Hlen & Hids & Hscripts).
  exists fh. by repeat split.
Qed.

(** X5. The resolver is called once by every [POST /geo-chat] whose
    message passes the length gate, whether the call succeeds or fails,
    and by no other request. *)
Theorem resolver_called_once_per_long_post
    (requests : list Request) (w : World) :
  chain_calls (serve requests w) =
  chain_calls w + length (List.filter asks_resolver requests).
Proof. apply serve_chain_calls. Qed.

(** X6. Every request that reaches the resolver makes the log longer by
    one turn at least and by two at most, and no other request changes its
    length. *)
Theorem log_length_bounds (requests : list Request) (w : World) :
  length (chat w) + length (List.filter asks_resolver requests) <=
    length (chat (serve requests w)) /\
  length (chat (serve requests w)) <=
    length (chat w) + 2 * length (List.filter asks_resolver requests).
Proof.
  rewrite serve_chat, length_app.
  destruct (appended_length requests w). lia.
Qed.

(** X7. Requests that do not reach the resolver, that is the two [GET]
    routes and a [POST /geo-chat] with a message of at most 5 characters,
    leave the log and the count of model calls as they are, however many
    of them are served. *)
Theorem quiet_requests_keep_state (requests : list Request) (w : World) :
  Forall (fun r : Request => asks_resolver r = false) requests ->
  chat (serve requests w) = chat w /\
  chain_calls (serve requests w) = chain_calls w.
Proof.
  intros Hquiet.
  assert (Hnone : List.filter asks_resolver requests = []).
  { induction Hquiet as [|r rest Hr _ IH]; [reflexivity|].
    cbn [List.filter]. by rewrite Hr. }
  split.
  - rewrite serve_chat.
    destruct (appended_length requests w) as [_ Hhi].
    rewrite Hnone in Hhi. cbn [length] in Hhi.
    destruct (appended requests w); [by rewrite app_nil_r|].
    cbn [length] in Hhi. lia.
  - rewrite serve_chain_calls, Hnone. cbn [length]. lia.
Qed.

(** X8. The log of the running process is a sequence of exchanges: each is
    a user turn followed by the bot turn that answers it, or a user turn
    alone (the resolver failed on it).  So the log starts with a user turn
    and a bot turn always comes right after a user turn. *)
Theorem log_is_exchanges (requests : list Request) :
  exchanges (chat (serve requests initial_world)).
Proof.
  rewrite serve_chat. apply exchanges_app.
  - apply chat_seed_exchanges.
  - apply appended_exchanges.
Qed.

(** X9. In the running process [GET /geo-chat] never raises; it leaves
    the log as it is, draws one identifier per bot turn of the log, and
    its page embeds one script per bot turn and one map container per
    draw, in the order of the draws. *)
Theorem get_geo_chat_serves_log (requests : list Request) :
  exists page : FT,
    get_geo_chat (serve requests initial_world) =
      (Ok (One page),
       after_uuid4 (count_maps (chat (serve requests initial_world)))
         (serve requests initial_world)) /\
    length (scripts page) =
      count_maps (chat (serve requests initial_world)) /\
    map_ids page =
      List.map (fun k : nat => replace (uuid4 k) "-" "_")
        (seq (uuid4_calls (serve requests initial_world))
           (count_maps (chat (serve requests initial_world)))).
Proof.
  generalize (serve_shaped requests initial_world chat_seed_shaped).
  generalize (serve requests initial_world). intros w Hshape.
  destruct (messages_to_fh_counted (chat w) w Hshape)
    as (fh & Hrun & _ & Hids & Hscripts).
  eexists. unfold get_geo_chat, bind, chat_read. rewrite Hrun. cbn [ret].
  split; [reflexivity|]. split.
  - rewrite <- Hscripts.
    match goal with
    | |- length (scripts ?p) = _ =>
        change (scripts p) with (List.concat (List.map scripts fh) ++ [])
    end.
    by rewrite app_nil_r.
  - unfold drawn_id in Hids. rewrite <- Hids.
    match goal with
    | |- map_ids ?p = _ =>
        change (map_ids p) with (List.concat (List.map map_ids fh) ++ [])
    end.
    by rewrite app_nil_r.
Qed.

(** X10. On a log of well-shaped turns a [POST /geo-chat] returns the
    chatbox unless the resolver raises: the only exception it can end with
    is the one of the resolver call, on a message that passed the length
    gate. *)
Theorem post_fails_only_with_resolver (message : string) (w : World) :
  Forall turn_shape (chat w) ->
  (exists fh : list FT,
     fst (post message w) = Ok (Tuple [ Div fh [ ("id", "chatbox") ] ])) \/
  (exists e : exn,
     5 < len message /\
     chain_invoke (chain_calls w) message = Raise e /\
     fst (post message w) = Raise e).
Proof.
  intros Hshape.
  destruct (5 <? len message)%nat eqn:Hlen.
  - apply Nat.ltb_lt in Hlen.
    destruct (chain_invoke (chain_calls w) message) as [a|e] eqn:Hcall.
    + left. rewrite (post_answered _ a) by done.
      edestruct (chatbox_shaped
                   {| chat := chat w ++ [ user_turn message; bot_turn a ];
                      uuid4_calls := uuid4_calls w;
                      chain_calls := S (chain_calls w) |})
        as (fh & n & -> & _).
      { cbn [chat]. apply Forall_app. split; [exact Hshape|].
        constructor; [apply shape_user|].
        constructor; [apply shape_bot | constructor]. }
      by exists fh.
    + right. exists e. rewrite (post_failed _ e) by done. by repeat split.
  - apply Nat.ltb_ge in Hlen. left. rewrite post_short by done.
    destruct (chatbox_shaped w Hshape) as (fh & n & -> & _).
    by exists fh.
Qed.

(** X11. The id that [get_map_with_marker] gives to the container is the
    text of the drawn UUID with every hyphen turned into an underscore and
    every other character kept: it has the length of that text and no
    hyphen. *)
Theorem map_id_has_no_hyphen (lat lon : pyval) (w : World) :
  exists (id_div : string) (script : FT),
    get_map_with_marker lat lon w =
      (Ok (Div [ Div [] [ ("id", id_div); ("cls", "map") ]; script ] []),
       after_uuid4 1 w) /\
    list_ascii_of_string id_div =
      List.map (fun c : ascii => if Ascii.eqb c "-" then "_"%char else c)
        (list_ascii_of_string (uuid4 (uuid4_calls w))) /\
    String.length id_div = String.length (uuid4 (uuid4_calls w)) /\
    Forall (fun c : ascii => c <> "-"%char) (list_ascii_of_string id_div).
Proof.
  exists (replace (uuid4 (uuid4_calls w)) "-" "_"). eexists.
  split; [reflexivity|].
  generalize (uuid4 (uuid4_calls w)). intros u.
  split; [apply replace_hyphen|].
  split.
  - rewrite <- (string_of_list_ascii_of_string (replace u "-" "_")).
    rewrite <- (string_of_list_ascii_of_string u) at 2.
    rewrite replace_hyphen.
    generalize (list_ascii_of_string u). intros l.
    induction l as [|c l IH]; [reflexivity|].
    cbn [List.map string_of_list_ascii String.length]. by rewrite IH.
  - rewrite replace_hyphen. apply Forall_forall. intros c Hin.
    apply list_elem_of_In, in_map_iff in Hin as (c0 & <- & _).
    destruct (Ascii.eqb_spec c0 "-"); [discriminate | done].
Qed.

(** X12. The navigation bar has two links, to [/] and to [/geo-chat]; a
    link is marked active exactly when the current page is its target, so
    at most one link is. *)
Theorem navigation_marks_current_page (current_page : string) :
  List.map (attr "href") (anchors (get_navigation current_page)) =
    [ Some "/"; Some "/geo-chat" ] /\
  Forall
    (fun a : list (string * string) =>
       exists href : string,
         attr "href" a = Some href /\
         (attr "cls" a = Some "active" <-> current_page = href))
    (anchors (get_navigation current_page)) /\
  length
    (List.filter
       (fun a : list (string * string) =>
          bool_decide (attr "cls" a = Some "active"))
       (anchors (get_navigation current_page))) <= 1.
Proof.
  rewrite anchors_get_navigation.
  split; [reflexivity|].
  destruct (String.eqb_spec current_page "/") as [Hroot|Hroot];
    destruct (String.eqb_spec current_page "/geo-chat") as [Hchat|Hchat].
  - rewrite Hroot in Hchat. discriminate Hchat.
  - split; [|vm_compute; lia].
    constructor; [|constructor; [|constructor]].
    + exists "/". split; [reflexivity|]. by split.
    + exists "/geo-chat". split; [reflexivity|].
      split; [intros H; discriminate H | intros H; by destruct Hchat].
  - split; [|vm_compute; lia].
    constructor; [|constructor; [|constructor]].
    + exists "/". split; [reflexivity|].
      split; [intros H; discriminate H | intros H; by destruct Hroot].
    + exists "/geo-chat". split; [reflexivity|]. by split.
  - split; [|vm_compute; lia].
    constructor; [|constructor; [|constructor]].
    + exists "/". split; [reflexivity|].
      split; [intros H; discriminate H | intros H; by destruct Hroot].
    + exists "/geo-chat". split; [reflexivity|].
      split; [intros H; discriminate H | intros H; by destruct Hchat].
Qed.

End Handlers.

(** ** The statements on concrete requests

    The environment is the sample one; the process is in its initial
    state. *)

Lemma post_appends_user_then_bot_witness :
  5 < len "Where is Paris?" /\
  sample_chain_invoke (chain_calls initial_world) "Where is Paris?" =
    Ok paris_answer /\
  chat (snd (post sample_float_repr sample_uuid4 sample_chain_invoke
               "Where is Paris?" initial_world)) =
    chat initial_world ++
    [ ({[ "role" := VStr "user"; "message" := VStr "Where is Paris?" ]} : Turn);
      ({[ "role" := VStr "bot";
          "message" := VStr (answer paris_answer);
          "lat" := VFloat (lat paris_answer);
          "lon" := VFloat (lon paris_answer) ]} : Turn) ] /\
  (Forall turn_shape (chat initial_world) ->
   exists fh : list FT,
     fst (post sample_float_repr sample_uuid4 sample_chain_invoke
            "Where is Paris?" initial_world) =
       Ok (Tuple [ Div fh [ ("id", "chatbox") ] ]) /\
     length fh = length (chat initial_world) + 2).
Proof.
  assert (Hlen : 5 < len "Where is Paris?") by (vm_compute; lia).
  assert (Hanswer :
            sample_chain_invoke (chain_calls initial_world) "Where is Paris?" =
            Ok paris_answer) by reflexivity.
  exact (conj Hlen (conj Hanswer
           (post_appends_user_then_bot sample_float_repr sample_uuid4
              sample_chain_invoke "Where is Paris?" paris_answer initial_world
              Hlen Hanswer))).
Defined.

Lemma post_short_leaves_log_witness :
  len "Hi" <= 5 /\
  chat (snd (post sample_float_repr sample_uuid4 sample_chain_invoke
               "Hi" initial_world)) = chat initial_world /\
  chain_calls (snd (post sample_float_repr sample_uuid4 sample_chain_invoke
                      "Hi" initial_world)) = chain_calls initial_world.
Proof.
  assert (Hlen : len "Hi" <= 5) by (vm_compute; lia).
  exact (conj Hlen
           (post_short_leaves_log sample_float_repr sample_uuid4
              sample_chain_invoke "Hi" initial_world Hlen)).
Defined.

(** The claim C3 as it is written fails on this request: the model's reply
    to it does not parse, the request fails, and the log is not the one
    before the request: the user turn is in it. *)
Lemma post_failure_not_atomic :
  5 < len "Tell me a joke" /\
  sample_chain_invoke (chain_calls initial_world) "Tell me a joke" =
    Raise OutputParserException /\
  fst (post sample_float_repr sample_uuid4 sample_chain_invoke
         "Tell me a joke" initial_world) = Raise OutputParserException /\
  chat (snd (post sample_float_repr sample_uuid4 sample_chain_invoke
               "Tell me a joke" initial_world)) =
    chat initial_world ++
    [ ({[ "role" := VStr "user"; "message" := VStr "Tell me a joke" ]} : Turn) ] /\
  chat (snd (post sample_float_repr sample_uuid4 sample_chain_invoke
               "Tell me a joke" initial_world)) <> chat initial_world.
Proof.
  split; [vm_compute; lia|].
  split; [reflexivity|].
  split; [vm_compute; reflexivity|].
  split; [vm_compute; reflexivity|].
  intros Heq. apply (f_equal length) in Heq. vm_compute in Heq. discriminate Heq.
Qed.

Lemma post_failure_appends_only_user_turn_witness :
  5 < len "Tell me a joke" /\
  sample_chain_invoke (chain_calls initial_world) "Tell me a joke" =
    Raise OutputParserException /\
  fst (post sample_float_repr sample_uuid4 sample_chain_invoke
         "Tell me a joke" initial_world) = Raise OutputParserException /\
  chat (snd (post sample_float_repr sample_uuid4 sample_chain_invoke
               "Tell me a joke" initial_world)) =
    chat initial_world ++
    [ ({[ "role" := VStr "user"; "message" := VStr "Tell me a joke" ]} : Turn) ].
Proof.
  assert (Hlen : 5 < len "Tell me a joke") by (vm_compute; lia).
  assert (Hraise :
            sample_chain_invoke (chain_calls initial_world) "Tell me a joke" =
            Raise OutputParserException) by reflexivity.
  exact (conj Hlen (conj Hraise
           (post_failure_appends_only_user_turn sample_float_repr sample_uuid4
              sample_chain_invoke "Tell me a joke" OutputParserException
              initial_world Hlen Hraise))).
Defined.

Lemma post_short_renders_log_witness :
  len "Hi" <= 5 /\
  Forall turn_shape (chat initial_world) /\
  exists (fh : list FT) (w' : World),
    post sample_float_repr sample_uuid4 sample_chain_invoke "Hi" initial_world =
      (Ok (Tuple [ Div fh [ ("id", "chatbox") ] ]), w') /\
    chat w' = chat initial_world /\
    messages_to_fh sample_float_repr sample_uuid4 (chat initial_world)
      initial_world = (Ok fh, w') /\
    length fh = length (chat initial_world) /\
    Forall2
      (fun (t : Turn) (e : FT) =>
         (exists text : string,
            t !! "role" = Some (VStr "user") /\
            t !! "message" = Some (VStr text) /\
            e = Div [ Div [ Txt (VStr text) ] [] ]
                  [ ("cls", "container chat-user") ]) \/
         (exists (text id_div : string) (la lo : float),
            t !! "role" = Some (VStr "bot") /\
            t !! "message" = Some (VStr text) /\
            t !! "lat" = Some (VFloat la) /\
            t !! "lon" = Some (VFloat lo) /\
            e = Div
                  [ Div
                      [ P [ Txt (VStr text) ] [];
                        Div [] [ ("id", id_div); ("cls", "map") ];
                        Script
                          (plot_text id_div
                             (json_float sample_float_repr la)
                             (json_float sample_float_repr lo)) ]
                      [] ]
                  [ ("cls", "container chat-bot") ]))
      (chat initial_world) fh /\
    List.concat (List.map map_ids fh) =
      List.map (fun k : nat => replace (sample_uuid4 k) "-" "_")
        (seq (uuid4_calls initial_world) (count_maps (chat initial_world))).
Proof.
  assert (Hlen : len "Hi" <= 5) by (vm_compute; lia).
  exact (conj Hlen (conj chat_seed_shaped
           (post_short_renders_log sample_float_repr sample_uuid4
              sample_chain_invoke "Hi" initial_world Hlen chat_seed_shaped))).
Defined.

Lemma post_mlk_scenario_witness :
  sample_chain_invoke (chain_calls initial_world)
    "Bonjour, où est né Martin Luther King ?" =
    Ok {| answer := "Martin Luther King est né à Atlanta, en Géorgie.";
          lat := 33.7490;
          lon := -84.3880 |} /\
  chat (snd (post sample_float_repr sample_uuid4 sample_chain_invoke
               "Bonjour, où est né Martin Luther King ?" initial_world)) =
    chat initial_world ++
    [ ({[ "role" := VStr "user";
          "message" := VStr "Bonjour, où est né Martin Luther King ?" ]} : Turn);
      ({[ "role" := VStr "bot";
          "message" := VStr "Martin Luther King est né à Atlanta, en Géorgie.";
          "lat" := VFloat 33.7490%float;
          "lon" := VFloat (-84.3880)%float ]} : Turn) ].
Proof.
  assert (Hanswer :
            sample_chain_invoke (chain_calls initial_world)
              "Bonjour, où est né Martin Luther King ?" =
            Ok {| answer := "Martin Luther King est né à Atlanta, en Géorgie.";
                  lat := 33.7490;
                  lon := -84.3880 |}) by reflexivity.
  exact (conj Hanswer
           (post_mlk_scenario sample_float_repr sample_uuid4
              sample_chain_invoke initial_world Hanswer)).
Defined.

Lemma bot_turn_embeds_one_plot_witness :
  Forall turn_shape chat_seed /\
  exists (fh : list FT) (w' : World),
    messages_to_fh sample_float_repr sample_uuid4 chat_seed initial_world =
      (Ok fh, w') /\
    Forall2
      (fun (t : Turn) (e : FT) =>
         (t !! "role" = Some (VStr "user") /\ scripts e = []) \/
         (exists (id_div : string) (la lo : float),
            t !! "role" = Some (VStr "bot") /\
            t !! "lat" = Some (VFloat la) /\
            t !! "lon" = Some (VFloat lo) /\
            scripts e =
              [ [ Txt (VStr (plot_text id_div
                               (json_float sample_float_repr la)
                               (json_float sample_float_repr lo))) ] ]))
      chat_seed fh.
Proof.
  exact (conj chat_seed_shaped
           (bot_turn_embeds_one_plot sample_float_repr sample_uuid4
              chat_seed initial_world chat_seed_shaped)).
Defined.

(** The whole response to the request of two characters, in the initial
    state: the seeded log, rendered. *)
Example post_hi_response :
  fst (post sample_float_repr sample_uuid4 sample_chain_invoke "Hi"
         initial_world) =
  Ok (Tuple
        [ Div
            [ Div
                [ Div [ Txt (VStr "Bonjour, où est né Martin Luther King ?") ]
                    [] ]
                [ ("cls", "container chat-user") ];
              Div
                [ Div
                    [ P [ Txt (VStr "Martin Luther King est né à Atlanta, en Géorgie.") ]
                        [];
                      Div []
                        [ ("id", "6f1c2b9e_3a47_4d06_b5e3_0c9d8e7f6a51");
                          ("cls", "map") ];
                      Script
                        (plot_text "6f1c2b9e_3a47_4d06_b5e3_0c9d8e7f6a51"
                           "33.749" "-84.388") ]
                    [] ]
                [ ("cls", "container chat-bot") ] ]
            [ ("id", "chatbox") ] ]).
Proof. vm_compute. reflexivity. Qed.

(** ** The further properties on concrete data *)



Lemma messages_to_fh_draws_in_order_witness :
  Forall turn_shape chat_seed /\
  exists fh : list FT,
    messages_to_fh sample_float_repr sample_uuid4 chat_seed initial_world =
      (Ok fh, after_uuid4 (count_maps chat_seed) initial_world) /\
    length fh = length chat_seed /\
    List.concat (List.map map_ids fh) =
      List.map (fun k : nat => replace (sample_uuid4 k) "-" "_")
        (seq (uuid4_calls initial_world) (count_maps chat_seed)) /\
    length (List.concat (List.map scripts fh)) = count_maps chat_seed.
Proof.
  exact (conj chat_seed_shaped
           (messages_to_fh_draws_in_order sample_float_repr sample_uuid4
              chat_seed initial_world chat_seed_shaped)).
Defined.

Lemma quiet_requests_keep_state_witness :
  Forall (fun r : Request => asks_resolver r = false)
    [ GET_root; GET_geo_chat; POST_geo_chat "Hi"; GET_geo_chat ] /\
  chat (serve sample_float_repr sample_uuid4 sample_chain_invoke
          [ GET_root; GET_geo_chat; POST_geo_chat "Hi"; GET_geo_chat ]
          initial_world) = chat initial_world /\
  chain_calls (serve sample_float_repr sample_uuid4 sample_chain_invoke
                 [ GET_root; GET_geo_chat; POST_geo_chat "Hi"; GET_geo_chat ]
                 initial_world) = chain_calls initial_world.
Proof.
  assert (Hquiet :
            Forall (fun r : Request => asks_resolver r = false)
              [ GET_root; GET_geo_chat; POST_geo_chat "Hi"; GET_geo_chat ])
    by (repeat constructor).
  exact (conj Hquiet
           (quiet_requests_keep_state sample_float_repr sample_uuid4
              sample_chain_invoke _ initial_world Hquiet)).
Defined.

Lemma post_fails_only_with_resolver_witness :
  Forall turn_shape (chat initial_world) /\
  ((exists fh : list FT,
      fst (post sample_float_repr sample_uuid4 sample_chain_invoke
             "Tell me a joke" initial_world) =
      Ok (Tuple [ Div fh [ ("id", "chatbox") ] ])) \/
   (exists e : exn,
      5 < len "Tell me a joke" /\
      sample_chain_invoke (chain_calls initial_world) "Tell me a joke" =
        Raise e /\
      fst (post sample_float_repr sample_uuid4 sample_chain_invoke
             "Tell me a joke" initial_world) = Raise e)).
Proof.
  exact (conj chat_seed_shaped
           (post_fails_only_with_resolver sample_float_repr sample_uuid4
              sample_chain_invoke "Tell me a joke" initial_world
              chat_seed_shaped)).
Defined.
